(** * abstract_turtle: the turtle state machine over an abstract canvas

    A shallow embedding of [abstract_turtle/abstract_turtle.py].

    - Python numbers are read as real numbers ([R]); [math.pi], [math.sin]
      and [math.cos] are [PI], [sin] and [cos].
    - A turtle object is a record of its ten private attributes; every
      method is a function from the object before the call to an outcome:
      the returned value or the raised exception, together with the object
      after the call.
    - The canvas is an abstract class.  The attribute [__canvas] is modelled
      by the sequence of calls the canvas object has received so far, oldest
      first, each with its positional arguments in the order they were
      passed.  The canvas methods themselves are taken to return.
    - A polygon list is created by [begin_fill], grown by [goto] and handed
      to the canvas by [end_fill], which then drops the turtle's reference
      to it; the turtle never touches a list the canvas holds, so lists are
      modelled by value.
    - [abstract_turtle/turtle.py] only builds a module-level turtle and
      copies its methods into the module; it defines no turtle behaviour
      and is not modelled. *)

From Stdlib Require Import Reals Lra List Bool ZArith.
Import ListNotations.
Open Scope R_scope.

(** ** Value types of [abstract_turtle.model] *)

(** Modelled from the spec: the module [model] is imported by the source but
    is not part of it.  A position is an immutable pair (x, y) of real
    numbers, compared by value. *)
Record Position : Type := mkPosition { pos_x : R; pos_y : R }.

(** Modelled from the spec: the module [model] is imported by the source but
    is not part of it.  A colour is an immutable RGB value; the source
    builds black as [Color(0, 0, 0)]. *)
Record Color : Type := mkColor { red : Z; green : Z; blue : Z }.

(** Python passes arguments by position and checks no types, so the colour
    and width slots of a canvas call can receive either kind of value. *)
Inductive PyValue : Type :=
| PyNum (r : R)
| PyColor (c : Color).

(** ** class Canvas *)

Module Canvas.

(** One constructor per abstract method, with the parameters in the order
    of its declaration. *)
Inductive call : Type :=
| draw_line (start end_ : Position) (color width : PyValue)
| draw_circle (center : Position) (radius : R) (color width : PyValue)
              (is_filled : bool)
| fill_polygon (points : option (list Position)) (color : PyValue)
| set_bgcolor (color : PyValue)
| clear.

Definition is_draw_line (c : call) : bool :=
  match c with draw_line _ _ _ _ => true | _ => false end.

Definition is_draw_circle (c : call) : bool :=
  match c with draw_circle _ _ _ _ _ => true | _ => false end.

Definition is_fill_polygon (c : call) : bool :=
  match c with fill_polygon _ _ => true | _ => false end.

End Canvas.

(** ** The turtle object *)

Record turtle : Type := mkTurtle {
  __canvas : list Canvas.call;
  __x : R;
  __y : R;
  __line_width : R;
  __theta : R;
  __pen_color : Color;
  __fill_color : Color;
  __pen_down : bool;
  __degrees : R;
  __polygon : option (list Position)
}.

Definition set_canvas (v : list Canvas.call) (t : turtle) : turtle :=
  mkTurtle v (__x t) (__y t) (__line_width t) (__theta t) (__pen_color t)
           (__fill_color t) (__pen_down t) (__degrees t) (__polygon t).

Definition set_x (v : R) (t : turtle) : turtle :=
  mkTurtle (__canvas t) v (__y t) (__line_width t) (__theta t) (__pen_color t)
           (__fill_color t) (__pen_down t) (__degrees t) (__polygon t).

Definition set_y (v : R) (t : turtle) : turtle :=
  mkTurtle (__canvas t) (__x t) v (__line_width t) (__theta t) (__pen_color t)
           (__fill_color t) (__pen_down t) (__degrees t) (__polygon t).

Definition set_line_width (v : R) (t : turtle) : turtle :=
  mkTurtle (__canvas t) (__x t) (__y t) v (__theta t) (__pen_color t)
           (__fill_color t) (__pen_down t) (__degrees t) (__polygon t).

Definition set_theta (v : R) (t : turtle) : turtle :=
  mkTurtle (__canvas t) (__x t) (__y t) (__line_width t) v (__pen_color t)
           (__fill_color t) (__pen_down t) (__degrees t) (__polygon t).

Definition set_pen_color (v : Color) (t : turtle) : turtle :=
  mkTurtle (__canvas t) (__x t) (__y t) (__line_width t) (__theta t) v
           (__fill_color t) (__pen_down t) (__degrees t) (__polygon t).

Definition set_fill_color (v : Color) (t : turtle) : turtle :=
  mkTurtle (__canvas t) (__x t) (__y t) (__line_width t) (__theta t)
           (__pen_color t) v (__pen_down t) (__degrees t) (__polygon t).

Definition set_pen_down (v : bool) (t : turtle) : turtle :=
  mkTurtle (__canvas t) (__x t) (__y t) (__line_width t) (__theta t)
           (__pen_color t) (__fill_color t) v (__degrees t) (__polygon t).

Definition set_degrees (v : R) (t : turtle) : turtle :=
  mkTurtle (__canvas t) (__x t) (__y t) (__line_width t) (__theta t)
           (__pen_color t) (__fill_color t) (__pen_down t) v (__polygon t).

Definition set_polygon (v : option (list Position)) (t : turtle) : turtle :=
  mkTurtle (__canvas t) (__x t) (__y t) (__line_width t) (__theta t)
           (__pen_color t) (__fill_color t) (__pen_down t) (__degrees t) v.

(** ** Methods: state and exceptions *)

Inductive PyError : Type :=
| ZeroDivisionError
| AttributeError
| ColorFormatError.

(** What a method call leaves behind: a value or an exception, and the
    object as mutated up to that point. *)
Inductive outcome (A : Type) : Type :=
| Returns (a : A) (self' : turtle)
| Raises (e : PyError) (self' : turtle).

Arguments Returns {A} a self'.
Arguments Raises {A} e self'.

Definition method (A : Type) : Type := turtle -> outcome A.

Definition ret {A : Type} (a : A) : method A := fun self => Returns a self.

Definition raise {A : Type} (e : PyError) : method A :=
  fun self => Raises e self.

Definition bind {A B : Type} (m : method A) (k : A -> method B) : method B :=
  fun self =>
    match m self with
    | Returns a self' => k a self'
    | Raises e self' => Raises e self'
    end.

Definition attr {A : Type} (f : turtle -> A) : method A :=
  fun self => Returns (f self) self.

Definition assign (f : turtle -> turtle) : method unit :=
  fun self => Returns tt (f self).

Declare Scope method_scope.
Delimit Scope method_scope with method.
Notation "x <- m ;; k" := (bind m (fun x => k))
  (at level 61, m at next level, right associativity) : method_scope.
Notation "m ;; k" := (bind m (fun _ => k))
  (at level 61, right associativity) : method_scope.
Open Scope method_scope.

(** The object after a call, whatever its outcome. *)
Definition after {A : Type} (o : outcome A) : turtle :=
  match o with
  | Returns _ self' => self'
  | Raises _ self' => self'
  end.

(** The canvas calls issued between two snapshots of the same turtle. *)
Definition issued (before after_ : turtle) : list Canvas.call :=
  skipn (length (__canvas before)) (__canvas after_).

(** Python's built-in [max(a, b)] on two numbers: the first argument unless
    the second is strictly greater. *)
Definition py_max (a b : R) : R := if Rlt_dec a b then b else a.

(** ** class BaseTurtle *)

Module BaseTurtle.

(** [__init__]: a turtle on a canvas that has received [canvas] so far. *)
Definition init (canvas : list Canvas.call) : turtle :=
  {| __canvas := canvas;
     __x := 0;
     __y := 0;
     __line_width := 1;
     __theta := PI / 2;
     __pen_color := mkColor 0 0 0;
     __fill_color := mkColor 0 0 0;
     __pen_down := true;
     __degrees := 360;
     __polygon := None |}.

(** The property [__current_pos]. *)
Definition current_pos (self : turtle) : Position :=
  mkPosition (__x self) (__y self).

(** A call [self.__canvas.m(...)]: the canvas records it after the calls
    it already holds. *)
Definition canvas_call (c : Canvas.call) : method unit :=
  assign (fun self => set_canvas (__canvas self ++ [c]) self).

Definition filling : method bool :=
  attr (fun self =>
          match __polygon self with Some _ => true | None => false end).

(** [self.__polygon.append(p)]; [None] has no [append]. *)
Definition polygon_append (p : Position) : method unit :=
  fun self =>
    match __polygon self with
    | Some points => Returns tt (set_polygon (Some (points ++ [p])) self)
    | None => Raises AttributeError self
    end.

Definition goto (x y : R) : method unit :=
  pen_down <- attr __pen_down ;;
  (if pen_down : bool
   then start <- attr current_pos ;;
        color <- attr __pen_color ;;
        width <- attr __line_width ;;
        canvas_call (Canvas.draw_line start (mkPosition x y)
                                      (PyColor color) (PyNum width))
   else ret tt) ;;
  assign (set_x x) ;;
  assign (set_y y) ;;
  is_filling <- filling ;;
  if is_filling : bool
  then here <- attr current_pos ;; polygon_append here
  else ret tt.

Definition setpos := goto.
Definition setposition := goto.

Definition xcor : method R := attr __x.

Definition ycor : method R := attr __y.

Definition forward (amount : R) : method unit :=
  x <- xcor ;;
  theta <- attr __theta ;;
  y <- ycor ;;
  goto (x + amount * cos theta) (y + amount * sin theta).

Definition fd := forward.

(** [__to_real_angle]: the division raises when the unit is zero. *)
Definition to_real_angle (amount : R) : method R :=
  degrees <- attr __degrees ;;
  if Req_dec_T degrees 0
  then raise ZeroDivisionError
  else ret ((90 - amount) * (2 * PI) / degrees).

(** [__from_real_angle]: the divisor [2 * pi] is never zero. *)
Definition from_real_angle (angle : R) : method R :=
  degrees <- attr __degrees ;;
  ret (90 - angle * degrees / (2 * PI)).

Definition setheading (heading : R) : method unit :=
  theta <- to_real_angle heading ;;
  assign (set_theta theta).

Definition seth := setheading.

(** The third and fourth positional arguments are the line width and the
    pen colour, in that order. *)
Definition circle (radius : R) : method unit :=
  pen_down <- attr __pen_down ;;
  if pen_down : bool
  then center <- attr current_pos ;;
       width <- attr __line_width ;;
       color <- attr __pen_color ;;
       canvas_call (Canvas.draw_circle center radius
                                       (PyNum width) (PyColor color) true)
  else ret tt.

Definition dot (size : option R) : method unit :=
  size <- match size with
          | None => width <- attr __line_width ;;
                    ret (py_max (width + 4) (width * 2))
          | Some given => ret given
          end ;;
  pen_down <- attr __pen_down ;;
  if pen_down : bool
  then center <- attr current_pos ;;
       width <- attr __line_width ;;
       color <- attr __pen_color ;;
       canvas_call (Canvas.draw_circle center size
                                       (PyNum width) (PyColor color) false)
  else ret tt.

Definition heading : method R :=
  theta <- attr __theta ;;
  from_real_angle theta.

Definition degrees (amount : R) : method unit :=
  assign (set_degrees amount).

Definition pendown : method unit := assign (set_pen_down true).
Definition pd := pendown.
Definition down := pendown.

Definition penup : method unit := assign (set_pen_down false).
Definition pu := penup.
Definition up := penup.

(** Getter when [width] is [None] (the result is [Some] of the width),
    setter otherwise (the result is Python's [None]). *)
Definition pensize (width : option R) : method (option R) :=
  match width with
  | None => w <- attr __line_width ;; ret (Some w)
  | Some w => assign (set_line_width w) ;; ret None
  end.

Definition width := pensize.

Definition isdown : method bool := attr __pen_down.

Section ColorConversion.

(** [Color.of] belongs to the module [model], which is not part of the
    sources: it is taken as a parameter, with [None] for a specification it
    rejects. *)
Variable ColorSpec : Type.
Variable Color_of : ColorSpec -> option Color.

Definition convert_color (color : ColorSpec) : method Color :=
  match Color_of color with
  | Some c => ret c
  | None => raise ColorFormatError
  end.

Definition pencolor (color : ColorSpec) : method unit :=
  c <- convert_color color ;;
  assign (set_pen_color c).

Definition fillcolor (color : ColorSpec) : method unit :=
  c <- convert_color color ;;
  assign (set_fill_color c).

End ColorConversion.

Definition begin_fill : method unit :=
  here <- attr current_pos ;;
  assign (set_polygon (Some [here])).

Definition end_fill : method unit :=
  points <- attr __polygon ;;
  color <- attr __fill_color ;;
  canvas_call (Canvas.fill_polygon points (PyColor color)) ;;
  assign (set_polygon None).

Definition clear : method unit := canvas_call Canvas.clear.

End BaseTurtle.

(** ** class Turtle(BaseTurtle) *)

Module Turtle.

Definition backward (amount : R) : method unit :=
  BaseTurtle.forward (- amount).

Definition bk := backward.
Definition back := backward.

Definition right (amount : R) : method unit :=
  h <- BaseTurtle.heading ;;
  BaseTurtle.setheading (h + amount).

Definition rt := right.

Definition left (amount : R) : method unit := right (- amount).

Definition lt := left.

Definition setx (x : R) : method unit :=
  other <- BaseTurtle.xcor ;;
  BaseTurtle.goto x other.

Definition sety (y : R) : method unit :=
  other <- BaseTurtle.ycor ;;
  BaseTurtle.goto other y.

Definition home : method unit :=
  BaseTurtle.goto 0 0 ;;
  BaseTurtle.setheading 0.

Definition position : method (R * R) :=
  x <- BaseTurtle.xcor ;;
  y <- BaseTurtle.ycor ;;
  ret (x, y).

Definition pos := position.


Definition radians : method unit := BaseTurtle.degrees (2 * PI).

Definition color {ColorSpec : Type} (Color_of : ColorSpec -> option Color)
           (c : ColorSpec) : method unit :=
  BaseTurtle.pencolor ColorSpec Color_of c ;;
  BaseTurtle.fillcolor ColorSpec Color_of c.

Definition reset : method unit :=
  home ;;
  BaseTurtle.clear.

End Turtle.

(** ** Rotation chains *)

(** A chain of [right] and [left] calls, as a caller writes it. *)
Inductive rotation : Type :=
| Right (amount : R)
| Left (amount : R).

Definition rotate (r : rotation) : method unit :=
  match r with
  | Right amount => Turtle.right amount
  | Left amount => Turtle.left amount
  end.

Fixpoint rotate_all (rs : list rotation) : method unit :=
  match rs with
  | [] => ret tt
  | r :: rs' => rotate r ;; rotate_all rs'
  end.

(** The amount a chain asks for in all, clockwise, in user units. *)
Fixpoint net_rotation (rs : list rotation) : R :=
  match rs with
  | [] => 0
  | Right amount :: rs' => amount + net_rotation rs'
  | Left amount :: rs' => - amount + net_rotation rs'
  end.

(** ** Caller programs *)

(** A path: one [goto] per point, in order. *)
Fixpoint goto_all (ps : list Position) : method unit :=
  match ps with
  | [] => ret tt
  | p :: ps' => BaseTurtle.goto (pos_x p) (pos_y p) ;; goto_all ps'
  end.

(** The [draw_line] calls of a path drawn with one colour and width: a
    segment from each point to the next. *)
Fixpoint segments (color width : PyValue) (start : Position)
         (ps : list Position) : list Canvas.call :=
  match ps with
  | [] => []
  | p :: ps' => Canvas.draw_line start p color width
                :: segments color width p ps'
  end.


(** * Properties *)

(** ** Helper lemmas *)

Lemma skipn_length_app {A : Type} (l k : list A) :
  skipn (length l) (l ++ k) = k.
Proof.
  induction l as [| a l IH]; simpl; [reflexivity | exact IH].
Qed.

Lemma issued_app (before after_ : turtle) (calls : list Canvas.call) :
  __canvas after_ = __canvas before ++ calls ->
  issued before after_ = calls.
Proof.
  intros E. unfold issued. rewrite E. apply skipn_length_app.
Qed.

Lemma issued_nil (before after_ : turtle) :
  __canvas after_ = __canvas before ->
  issued before after_ = [].
Proof.
  intros E. apply issued_app. rewrite app_nil_r. exact E.
Qed.

Lemma bind_returns {A B : Type} (m : method A) (k : A -> method B)
      (self self' : turtle) (a : A) :
  m self = Returns a self' ->
  bind m k self = k a self'.
Proof.
  intros E. unfold bind. rewrite E. reflexivity.
Qed.

Lemma bind_raises {A B : Type} (m : method A) (k : A -> method B)
      (self self' : turtle) (e : PyError) :
  m self = Raises e self' ->
  bind m k self = Raises e self'.
Proof.
  intros E. unfold bind. rewrite E. reflexivity.
Qed.

(** [goto] in closed form: it always returns, the line is drawn only with
    the pen down, and the destination joins the polygon only while filling. *)
Lemma goto_returns (x y : R) (self : turtle) :
  BaseTurtle.goto x y self =
  Returns tt
    {| __canvas :=
         if __pen_down self
         then __canvas self ++
              [Canvas.draw_line (BaseTurtle.current_pos self) (mkPosition x y)
                                (PyColor (__pen_color self))
                                (PyNum (__line_width self))]
         else __canvas self;
       __x := x;
       __y := y;
       __line_width := __line_width self;
       __theta := __theta self;
       __pen_color := __pen_color self;
       __fill_color := __fill_color self;
       __pen_down := __pen_down self;
       __degrees := __degrees self;
       __polygon :=
         match __polygon self with
         | Some points => Some (points ++ [mkPosition x y])
         | None => None
         end |}.
Proof.
  destruct self as [cv x0 y0 w th pc fc pd dg pg].
  destruct pd, pg; reflexivity.
Qed.

(** ** Pen state and [goto] *)

(** C2: after [penup()], [goto(x, y)] issues no canvas call, so no
    [draw_line]; after [pendown()], it issues exactly one call, a [draw_line]
    from the position before the move to [(x, y)] with the current pen colour
    and pen width; either way the turtle ends at [(x, y)]. *)
Theorem goto_draws_iff_pen_down (self : turtle) (x y : R) :
  (exists self',
      (BaseTurtle.penup ;; BaseTurtle.goto x y) self = Returns tt self' /\
      issued self self' = [] /\
      filter Canvas.is_draw_line (issued self self') = [] /\
      BaseTurtle.current_pos self' = mkPosition x y) /\
  (exists self',
      (BaseTurtle.pendown ;; BaseTurtle.goto x y) self = Returns tt self' /\
      issued self self' =
        [Canvas.draw_line (BaseTurtle.current_pos self) (mkPosition x y)
                          (PyColor (__pen_color self))
                          (PyNum (__line_width self))] /\
      filter Canvas.is_draw_line (issued self self') = issued self self' /\
      BaseTurtle.current_pos self' = mkPosition x y).
Proof.
  split; eexists; (split; [unfold bind at 1; simpl; apply goto_returns |]).
  - simpl. rewrite (issued_nil self) by reflexivity. repeat split.
  - simpl. erewrite (issued_app self) by reflexivity. repeat split.
Qed.

(** ** Polygon filling *)

Lemma begin_fill_returns (self : turtle) :
  BaseTurtle.begin_fill self =
  Returns tt (set_polygon (Some [BaseTurtle.current_pos self]) self).
Proof. reflexivity. Qed.

Lemma end_fill_returns (self : turtle) :
  BaseTurtle.end_fill self =
  Returns tt
    (set_polygon None
       (set_canvas
          (__canvas self ++
           [Canvas.fill_polygon (__polygon self) (PyColor (__fill_color self))])
          self)).
Proof. reflexivity. Qed.

(** C1: from any turtle, [begin_fill(); goto(p1); goto(p2); end_fill()]
    returns and issues exactly one [fill_polygon] call, with the points
    [start; p1; p2] in that order ([start] being the position at
    [begin_fill]) and the current fill colour; [begin_fill] seeds the polygon
    with the current position, a [goto] while filling appends its
    destination, and [end_fill] clears the polygon, so [filling()] is false
    afterwards. *)
Theorem fill_sequence_one_polygon (self : turtle) (x1 y1 x2 y2 : R) :
  let start := BaseTurtle.current_pos self in
  let p1 := mkPosition x1 y1 in
  let p2 := mkPosition x2 y2 in
  (exists self',
      (BaseTurtle.begin_fill ;; BaseTurtle.goto x1 y1 ;;
       BaseTurtle.goto x2 y2 ;; BaseTurtle.end_fill) self = Returns tt self' /\
      filter Canvas.is_fill_polygon (issued self self') =
        [Canvas.fill_polygon (Some [start; p1; p2])
                             (PyColor (__fill_color self))] /\
      __fill_color self' = __fill_color self /\
      BaseTurtle.filling self' = Returns false self') /\
  __polygon (after (BaseTurtle.begin_fill self)) = Some [start] /\
  (forall (t : turtle) (x y : R),
      __polygon (after (BaseTurtle.goto x y t)) =
      option_map (fun points => points ++ [mkPosition x y]) (__polygon t)) /\
  (forall t : turtle, __polygon (after (BaseTurtle.end_fill t)) = None).
Proof.
  intros start p1 p2. split; [| split; [| split]].
  - rewrite (bind_returns _ _ _ _ _ (begin_fill_returns self)).
    rewrite (bind_returns _ _ _ _ _ (goto_returns x1 y1 _)).
    rewrite (bind_returns _ _ _ _ _ (goto_returns x2 y2 _)).
    rewrite end_fill_returns.
    unfold set_polygon, set_canvas; cbn [__canvas __x __y __line_width __theta
      __pen_color __fill_color __pen_down __degrees __polygon app].
    eexists; split; [reflexivity |].
    split; [| split; reflexivity].
    unfold issued; cbn [__canvas].
    destruct (__pen_down self); rewrite <- ?app_assoc;
      rewrite ?skipn_length_app; reflexivity.
  - reflexivity.
  - intros t x y. rewrite goto_returns. cbn [after __polygon].
    destruct (__polygon t); reflexivity.
  - intros t. reflexivity.
Qed.

(** ** Circles and dots *)

Lemma circle_returns (radius : R) (self : turtle) :
  BaseTurtle.circle radius self =
  Returns tt
    (if __pen_down self
     then set_canvas
            (__canvas self ++
             [Canvas.draw_circle (BaseTurtle.current_pos self) radius
                                 (PyNum (__line_width self))
                                 (PyColor (__pen_color self)) true])
            self
     else self).
Proof.
  destruct self as [cv x0 y0 w th pc fc pd dg pg]. destruct pd; reflexivity.
Qed.

(** C3, evaluated on a fresh turtle (pen down, width 1, black pen):
    [circle(5)] issues one [draw_circle] call whose colour slot holds the
    number 1 and whose width slot holds the colour black, which is not the
    call with the pen colour as colour and the pen width as width. *)
Theorem circle_transposes_color_and_width :
  let self := BaseTurtle.init [] in
  exists self',
    BaseTurtle.circle 5 self = Returns tt self' /\
    issued self self' =
      [Canvas.draw_circle (mkPosition 0 0) 5
                          (PyNum 1) (PyColor (mkColor 0 0 0)) true] /\
    issued self self' <>
      [Canvas.draw_circle (BaseTurtle.current_pos self) 5
                          (PyColor (__pen_color self))
                          (PyNum (__line_width self)) true] /\
    BaseTurtle.current_pos self' = BaseTurtle.current_pos self /\
    __theta self' = __theta self.
Proof.
  intros self. eexists. split; [apply circle_returns |].
  cbn [__pen_down self BaseTurtle.init].
  split; [reflexivity |]. split; [| split; reflexivity].
  unfold issued; cbn. intros E. discriminate E.
Qed.

Lemma py_max_Rmax (a b : R) : py_max a b = Rmax a b.
Proof.
  unfold py_max, Rmax.
  destruct (Rlt_dec a b), (Rle_dec a b); try reflexivity; lra.
Qed.

Lemma dot_returns (size : option R) (self : turtle) :
  BaseTurtle.dot size self =
  Returns tt
    (if __pen_down self
     then set_canvas
            (__canvas self ++
             [Canvas.draw_circle
                (BaseTurtle.current_pos self)
                match size with
                | None => py_max (__line_width self + 4) (__line_width self * 2)
                | Some given => given
                end
                (PyNum (__line_width self))
                (PyColor (__pen_color self)) false])
            self
     else self).
Proof.
  destruct self as [cv x0 y0 w th pc fc pd dg pg].
  destruct size, pd; reflexivity.
Qed.

(** C8, as it stands, fails with the pen up: on a fresh turtle after
    [penup()], [dot()] returns without any [draw_circle] call. *)
Lemma dot_default_pen_up_counterexample :
  let self := set_pen_down false (BaseTurtle.init []) in
  BaseTurtle.penup (BaseTurtle.init []) = Returns tt self /\
  ~ (exists (self' : turtle) (color width : PyValue),
        BaseTurtle.dot None self = Returns tt self' /\
        issued self self' =
          [Canvas.draw_circle
             (BaseTurtle.current_pos self)
             (py_max (__line_width self + 4) (__line_width self * 2))
             color width false]).
Proof.
  intros self. split; [reflexivity |].
  intros (self' & color & width & E & I).
  rewrite dot_returns in E. cbn in E.
  injection E as E. subst self'. discriminate I.
Qed.

(** C8, amended: with the pen down and pen width [w], [dot()] with the size
    left out issues exactly one [draw_circle] call, centred at the current
    position, of size [max(w + 4, w * 2)], with [is_filled] false; the
    turtle does not move. *)
Theorem dot_default_pen_down (self : turtle) :
  __pen_down self = true ->
  exists (self' : turtle) (color width : PyValue),
    BaseTurtle.dot None self = Returns tt self' /\
    issued self self' =
      [Canvas.draw_circle
         (BaseTurtle.current_pos self)
         (Rmax (__line_width self + 4) (__line_width self * 2))
         color width false] /\
    BaseTurtle.current_pos self' = BaseTurtle.current_pos self.
Proof.
  intros Hdown. eexists. exists (PyNum (__line_width self)).
  exists (PyColor (__pen_color self)).
  split; [apply dot_returns |]. rewrite Hdown, py_max_Rmax.
  split; [apply issued_app |]; reflexivity.
Qed.

Lemma dot_default_pen_down_witness :
  exists (self' : turtle) (color width : PyValue),
    BaseTurtle.dot None (BaseTurtle.init []) = Returns tt self' /\
    issued (BaseTurtle.init []) self' =
      [Canvas.draw_circle (mkPosition 0 0) (Rmax (1 + 4) (1 * 2))
                          color width false] /\
    BaseTurtle.current_pos self' = mkPosition 0 0.
Proof.
  apply (dot_default_pen_down (BaseTurtle.init [])). reflexivity.
Defined.

(** C9: with the pen up, [dot], with or without a size, returns and leaves
    the turtle and its canvas as they were: no canvas call is issued. *)
Theorem dot_pen_up_silent (self : turtle) (size : option R) :
  __pen_down self = false ->
  BaseTurtle.dot size self = Returns tt self /\
  issued self (after (BaseTurtle.dot size self)) = [].
Proof.
  intros Hup. rewrite dot_returns, Hup.
  split; [reflexivity | apply issued_nil; reflexivity].
Qed.

Lemma dot_pen_up_silent_witness :
  BaseTurtle.dot (Some 3) (set_pen_down false (BaseTurtle.init [])) =
    Returns tt (set_pen_down false (BaseTurtle.init [])) /\
  issued (set_pen_down false (BaseTurtle.init []))
         (after (BaseTurtle.dot (Some 3)
                                (set_pen_down false (BaseTurtle.init [])))) = [].
Proof.
  apply (dot_pen_up_silent (set_pen_down false (BaseTurtle.init [])) (Some 3)).
  reflexivity.
Defined.

(** ** Headings and angle units *)

Lemma heading_returns (self : turtle) :
  BaseTurtle.heading self =
  Returns (90 - __theta self * __degrees self / (2 * PI)) self.
Proof. reflexivity. Qed.

Lemma setheading_returns (h : R) (self : turtle) :
  __degrees self <> 0 ->
  BaseTurtle.setheading h self =
  Returns tt (set_theta ((90 - h) * (2 * PI) / __degrees self) self).
Proof.
  intros Hd. unfold BaseTurtle.setheading, BaseTurtle.to_real_angle, bind, attr.
  destruct (Req_dec_T (__degrees self) 0) as [E | _]; [contradiction |].
  reflexivity.
Qed.

Lemma setheading_raises (h : R) (self : turtle) :
  __degrees self = 0 ->
  BaseTurtle.setheading h self = Raises ZeroDivisionError self.
Proof.
  intros Hd. unfold BaseTurtle.setheading, BaseTurtle.to_real_angle, bind, attr.
  destruct (Req_dec_T (__degrees self) 0) as [_ | N]; [| contradiction].
  reflexivity.
Qed.

(** The two conversions undo each other whenever the unit is not zero. *)
Lemma from_to_real_angle (d h : R) :
  d <> 0 ->
  90 - (90 - h) * (2 * PI) / d * d / (2 * PI) = h.
Proof.
  intros Hd. field. split; [exact Hd | exact PI_neq0].
Qed.

Lemma setheading_then_heading (h : R) (self : turtle) :
  __degrees self <> 0 ->
  (BaseTurtle.setheading h ;; BaseTurtle.heading) self =
  Returns h (set_theta ((90 - h) * (2 * PI) / __degrees self) self).
Proof.
  intros Hd.
  rewrite (bind_returns _ _ _ _ _ (setheading_returns h self Hd)).
  rewrite heading_returns. cbn [set_theta __theta __degrees].
  rewrite (from_to_real_angle _ _ Hd). reflexivity.
Qed.

Lemma right_returns (amount : R) (self : turtle) :
  __degrees self <> 0 ->
  exists self',
    Turtle.right amount self = Returns tt self' /\
    __degrees self' = __degrees self /\
    90 - __theta self' * __degrees self' / (2 * PI) =
    90 - __theta self * __degrees self / (2 * PI) + amount.
Proof.
  intros Hd. eexists. split.
  - unfold Turtle.right.
    rewrite (bind_returns _ _ _ _ _ (heading_returns self)).
    apply setheading_returns, Hd.
  - split; [reflexivity |]. cbn [set_theta __theta __degrees].
    apply from_to_real_angle, Hd.
Qed.

Lemma rotate_returns (r : rotation) (self : turtle) :
  __degrees self <> 0 ->
  exists self',
    rotate r self = Returns tt self' /\
    __degrees self' = __degrees self /\
    90 - __theta self' * __degrees self' / (2 * PI) =
    90 - __theta self * __degrees self / (2 * PI) + net_rotation [r].
Proof.
  intros Hd. destruct r as [amount | amount]; cbn [rotate net_rotation].
  - destruct (right_returns amount self Hd) as (self' & E & D & H).
    exists self'. rewrite H. repeat split; [exact E | exact D | ring].
  - destruct (right_returns (- amount) self Hd) as (self' & E & D & H).
    exists self'. rewrite H. repeat split; [exact E | exact D | ring].
Qed.

Lemma rotate_all_returns (rs : list rotation) :
  forall self : turtle,
    __degrees self <> 0 ->
    exists self',
      rotate_all rs self = Returns tt self' /\
      __degrees self' = __degrees self /\
      90 - __theta self' * __degrees self' / (2 * PI) =
      90 - __theta self * __degrees self / (2 * PI) + net_rotation rs.
Proof.
  induction rs as [| r rs IH]; intros self Hd.
  - exists self. cbn [rotate_all net_rotation].
    split; [reflexivity | split; [reflexivity | ring]].
  - destruct (rotate_returns r self Hd) as (self1 & E1 & D1 & H1).
    assert (Hd1 : __degrees self1 <> 0) by (rewrite D1; exact Hd).
    destruct (IH self1 Hd1) as (self' & E & D & H).
    exists self'. cbn [rotate_all].
    rewrite (bind_returns _ _ _ _ _ E1).
    split; [exact E |]. split; [congruence |].
    rewrite H, H1. cbn [net_rotation]. destruct r; ring.
Qed.

(** C4: for every heading [h] and every unit [d] other than zero,
    [degrees(d); setheading(h); heading()] returns exactly [h], and so does
    [radians(); setheading(h); heading()]; a chain of [right] and [left]
    calls under the unit [d] returns and leaves [heading()] at exactly the
    heading before the chain plus the net rotation asked for. *)
Theorem setheading_heading_roundtrip
        (self : turtle) (d h : R) (rs : list rotation) :
  d <> 0 ->
  (exists self',
      (BaseTurtle.degrees d ;; BaseTurtle.setheading h ;;
       BaseTurtle.heading) self = Returns h self') /\
  (exists self',
      (Turtle.radians ;; BaseTurtle.setheading h ;;
       BaseTurtle.heading) self = Returns h self') /\
  (exists (h0 : R) (self0 self' : turtle),
      (BaseTurtle.degrees d ;; BaseTurtle.heading) self = Returns h0 self0 /\
      rotate_all rs self0 = Returns tt self' /\
      BaseTurtle.heading self' = Returns (h0 + net_rotation rs) self').
Proof.
  intros Hd. split; [| split].
  - eexists.
    rewrite (bind_returns _ _ self (set_degrees d self) tt) by reflexivity.
    apply setheading_then_heading. exact Hd.
  - eexists.
    rewrite (bind_returns _ _ self (set_degrees (2 * PI) self) tt)
      by reflexivity.
    apply setheading_then_heading. cbn [set_degrees __degrees].
    pose proof PI_neq0. lra.
  - destruct (rotate_all_returns rs (set_degrees d self) Hd)
      as (self' & E & D & H).
    exists (90 - __theta self * d / (2 * PI)), (set_degrees d self), self'.
    split; [reflexivity |]. split; [exact E |].
    rewrite heading_returns, H. reflexivity.
Qed.

Lemma setheading_heading_roundtrip_witness :
  (exists self',
      (BaseTurtle.degrees 400 ;; BaseTurtle.setheading 45 ;;
       BaseTurtle.heading) (BaseTurtle.init []) = Returns 45 self') /\
  (exists self',
      (Turtle.radians ;; BaseTurtle.setheading 45 ;;
       BaseTurtle.heading) (BaseTurtle.init []) = Returns 45 self') /\
  (exists (h0 : R) (self0 self' : turtle),
      (BaseTurtle.degrees 400 ;; BaseTurtle.heading) (BaseTurtle.init []) =
        Returns h0 self0 /\
      rotate_all [Right 90; Left 30; Right 300] self0 = Returns tt self' /\
      BaseTurtle.heading self' =
        Returns (h0 + net_rotation [Right 90; Left 30; Right 300]) self').
Proof.
  apply (setheading_heading_roundtrip
           (BaseTurtle.init []) 400 45 [Right 90; Left 30; Right 300]).
  lra.
Defined.

(** C10: [degrees(d)] returns and changes the unit alone: the stored angle,
    the position, the pen state, the colours, the width, the polygon and the
    canvas are as before; [heading()] afterwards reads the same stored angle
    under the new unit. *)
Theorem degrees_changes_unit_only (self : turtle) (d : R) :
  BaseTurtle.degrees d self = Returns tt (set_degrees d self) /\
  (let self' := after (BaseTurtle.degrees d self) in
   __degrees self' = d /\
   __theta self' = __theta self /\
   __x self' = __x self /\
   __y self' = __y self /\
   __pen_down self' = __pen_down self /\
   __pen_color self' = __pen_color self /\
   __fill_color self' = __fill_color self /\
   __line_width self' = __line_width self /\
   __polygon self' = __polygon self /\
   __canvas self' = __canvas self) /\
  (BaseTurtle.degrees d ;; BaseTurtle.heading) self =
  Returns (90 - __theta self * d / (2 * PI)) (set_degrees d self).
Proof.
  split; [reflexivity |]. split; [| reflexivity].
  cbn. tauto.
Qed.

(** The reading of [heading()] is not kept across a change of unit: a fresh
    turtle reads 0, and -10 once the unit is 400. *)
Lemma degrees_reinterprets_heading :
  (exists self', BaseTurtle.heading (BaseTurtle.init []) = Returns 0 self') /\
  (exists self',
      (BaseTurtle.degrees 400 ;; BaseTurtle.heading) (BaseTurtle.init []) =
      Returns (-10) self').
Proof.
  split; eexists.
  - rewrite heading_returns. f_equal. cbn [BaseTurtle.init __theta __degrees].
    field. exact PI_neq0.
  - rewrite (bind_returns _ _ _ (set_degrees 400 (BaseTurtle.init [])) tt)
      by reflexivity.
    rewrite heading_returns. f_equal.
    cbn [BaseTurtle.init set_degrees __theta __degrees].
    field. exact PI_neq0.
Qed.

(** ** Fill state outside its protocol *)




(** ** The derived layer *)

Lemma setx_returns (x : R) (self : turtle) :
  Turtle.setx x self = BaseTurtle.goto x (__x self) self.
Proof. reflexivity. Qed.

Lemma sety_returns (y : R) (self : turtle) :
  Turtle.sety y self = BaseTurtle.goto (__y self) y self.
Proof. reflexivity. Qed.

(** C6, evaluated on a turtle at (1, 2), reached from a fresh turtle by
    [goto(1, 2)]: [setx(5)] ends at (5, 1), so the y coordinate went from 2
    to 1, and [sety(5)] ends at (2, 5), so the x coordinate went from 1 to
    2.  Both go through [goto]: with the pen down each issues one
    [draw_line] to where it ends. *)
Theorem setx_sety_swap_coordinates :
  let self := after (BaseTurtle.goto 1 2 (BaseTurtle.init [])) in
  BaseTurtle.current_pos self = mkPosition 1 2 /\
  (exists self',
      Turtle.setx 5 self = Returns tt self' /\
      BaseTurtle.current_pos self' = mkPosition 5 1 /\
      __y self' <> __y self /\
      issued self self' =
        [Canvas.draw_line (mkPosition 1 2) (mkPosition 5 1)
                          (PyColor (mkColor 0 0 0)) (PyNum 1)]) /\
  (exists self',
      Turtle.sety 5 self = Returns tt self' /\
      BaseTurtle.current_pos self' = mkPosition 2 5 /\
      __x self' <> __x self /\
      issued self self' =
        [Canvas.draw_line (mkPosition 1 2) (mkPosition 2 5)
                          (PyColor (mkColor 0 0 0)) (PyNum 1)]).
Proof.
  intros self. subst self. rewrite goto_returns.
  cbn [after BaseTurtle.init __canvas __x __y __line_width __theta __pen_color
             __fill_color __pen_down __degrees __polygon app
             BaseTurtle.current_pos].
  split; [reflexivity |]. split; eexists.
  - split; [rewrite setx_returns; apply goto_returns |].
    cbn [__canvas __x __y __line_width __pen_color __pen_down
                  BaseTurtle.current_pos].
    split; [reflexivity |]. split; [lra |].
    apply issued_app. reflexivity.
  - split; [rewrite sety_returns; apply goto_returns |].
    cbn [__canvas __x __y __line_width __pen_color __pen_down
                  BaseTurtle.current_pos].
    split; [reflexivity |]. split; [lra |].
    apply issued_app. reflexivity.
Qed.

(** What [setx] and [sety] do on every turtle: the coordinate named is set,
    and the other one takes the old value of the coordinate named. *)
Lemma setx_sety_positions (self : turtle) (v : R) :
  BaseTurtle.current_pos (after (Turtle.setx v self)) =
    mkPosition v (__x self) /\
  BaseTurtle.current_pos (after (Turtle.sety v self)) =
    mkPosition (__y self) v.
Proof.
  rewrite setx_returns, sety_returns, !goto_returns. split; reflexivity.
Qed.

(** C7: [backward(a)] is [forward(-a)] and [left(a)] is [right(-a)], with
    the same outcome (value or exception, object and canvas) on every
    turtle; [forward(a)] is [goto(x + a cos theta, y + a sin theta)], so
    [backward(a)] returns with the turtle at
    [(x - a cos theta, y - a sin theta)]; every alias has the outcome of the
    method it names. *)
Theorem backward_left_aliases_delegate (self : turtle) (a x y : R) :
  Turtle.backward a self = BaseTurtle.forward (- a) self /\
  Turtle.left a self = Turtle.right (- a) self /\
  BaseTurtle.forward a self =
    BaseTurtle.goto (__x self + a * cos (__theta self))
                    (__y self + a * sin (__theta self)) self /\
  (exists self',
      Turtle.backward a self = Returns tt self' /\
      __x self' = __x self - a * cos (__theta self) /\
      __y self' = __y self - a * sin (__theta self) /\
      __theta self' = __theta self) /\
  (BaseTurtle.fd a self = BaseTurtle.forward a self /\
   Turtle.bk a self = Turtle.backward a self /\
   Turtle.back a self = Turtle.backward a self /\
   Turtle.rt a self = Turtle.right a self /\
   Turtle.lt a self = Turtle.left a self /\
   BaseTurtle.seth a self = BaseTurtle.setheading a self /\
   BaseTurtle.setpos x y self = BaseTurtle.goto x y self /\
   BaseTurtle.setposition x y self = BaseTurtle.goto x y self /\
   Turtle.pos self = Turtle.position self /\
   BaseTurtle.pd self = BaseTurtle.pendown self /\
   BaseTurtle.down self = BaseTurtle.pendown self /\
   BaseTurtle.pu self = BaseTurtle.penup self /\
   BaseTurtle.up self = BaseTurtle.penup self /\
   (forall w : option R, BaseTurtle.width w self = BaseTurtle.pensize w self)).
Proof.
  split; [reflexivity |]. split; [reflexivity |]. split; [reflexivity |].
  split; [| repeat (split; [reflexivity |]); reflexivity].
  eexists. split.
  - unfold Turtle.backward, BaseTurtle.forward, BaseTurtle.xcor,
      BaseTurtle.ycor.
    rewrite (bind_returns _ _ self self (__x self)) by reflexivity.
    rewrite (bind_returns _ _ self self (__theta self)) by reflexivity.
    rewrite (bind_returns _ _ self self (__y self)) by reflexivity.
    apply goto_returns.
  - cbn [__x __y __theta]. repeat split; ring.
Qed.

(** * Further properties of the turtle *)

(** ** Paths *)

Lemma last_cons {A : Type} (ps : list A) :
  forall a d : A, last (a :: ps) d = last ps a.
Proof.
  induction ps as [| b ps IH]; intros a d; [reflexivity |].
  change (last (a :: b :: ps) d) with (last (b :: ps) d).
  rewrite !IH. reflexivity.
Qed.

Lemma goto_all_returns (ps : list Position) :
  forall self : turtle,
    exists self',
      goto_all ps self = Returns tt self' /\
      __canvas self' =
        __canvas self ++
        (if __pen_down self
         then segments (PyColor (__pen_color self)) (PyNum (__line_width self))
                       (BaseTurtle.current_pos self) ps
         else []) /\
      __polygon self' =
        option_map (fun points => points ++ ps) (__polygon self) /\
      BaseTurtle.current_pos self' = last ps (BaseTurtle.current_pos self) /\
      __pen_down self' = __pen_down self /\
      __pen_color self' = __pen_color self /\
      __fill_color self' = __fill_color self /\
      __line_width self' = __line_width self /\
      __theta self' = __theta self /\
      __degrees self' = __degrees self.
Proof.
  induction ps as [| [px py] ps IH]; intros self.
  - exists self. cbn [goto_all segments last option_map].
    split; [reflexivity |].
    split; [destruct (__pen_down self); rewrite app_nil_r; reflexivity |].
    split; [destruct (__polygon self); cbn; rewrite ?app_nil_r; reflexivity |].
    repeat (split; [reflexivity |]). reflexivity.
  - cbn [goto_all pos_x pos_y].
    rewrite (bind_returns _ _ _ _ _ (goto_returns px py self)).
    match goal with |- context [goto_all ps ?s] => destruct (IH s)
      as (self' & E & C & P & L & D & PC & FC & W & T & U) end.
    exists self'. split; [exact E |].
    unfold BaseTurtle.current_pos in *.
    cbn [__canvas __x __y __line_width __theta __pen_color __fill_color
                  __pen_down __degrees __polygon]
      in C, P, L, D, PC, FC, W, T, U.
    split.
    { rewrite C. destruct (__pen_down self); cbn [segments].
      - rewrite <- app_assoc. reflexivity.
      - reflexivity. }
    split.
    { rewrite P. destruct (__polygon self); cbn [option_map]; [| reflexivity].
      rewrite <- app_assoc. reflexivity. }
    split.
    { rewrite L, last_cons. reflexivity. }
    repeat (split; [assumption |]). assumption.
Qed.

Lemma segments_length (color width : PyValue) (ps : list Position) :
  forall start : Position, length (segments color width start ps) = length ps.
Proof.
  induction ps as [| p ps IH]; intros start; cbn [segments length];
    [reflexivity | rewrite IH; reflexivity].
Qed.

Lemma segments_are_lines (color width : PyValue) (ps : list Position) :
  forall start : Position,
    filter Canvas.is_fill_polygon (segments color width start ps) = [].
Proof.
  induction ps as [| p ps IH]; intros start; cbn; [reflexivity | apply IH].
Qed.

(** A path of any length: with the pen down every [goto] draws one line,
    each starting where the previous one ended, all with the pen colour and
    width the path started with; with the pen up nothing is issued.  The
    turtle ends on the last point (or stays put on the empty path) and keeps
    its heading. *)
Theorem path_draws_chained_segments (self : turtle) (ps : list Position) :
  exists self',
    goto_all ps self = Returns tt self' /\
    issued self self' =
      (if __pen_down self
       then segments (PyColor (__pen_color self)) (PyNum (__line_width self))
                     (BaseTurtle.current_pos self) ps
       else []) /\
    length (issued self self') =
      (if __pen_down self then length ps else 0%nat) /\
    BaseTurtle.current_pos self' = last ps (BaseTurtle.current_pos self) /\
    __theta self' = __theta self.
Proof.
  destruct (goto_all_returns ps self)
    as (self' & E & C & _ & L & _ & _ & _ & _ & T & _).
  exists self'. split; [exact E |].
  rewrite (issued_app self self' _ C).
  split; [reflexivity |]. split; [| split; assumption].
  destruct (__pen_down self); [apply segments_length | reflexivity].
Qed.

(** Filling along a path of any length, pen up or down:
    [begin_fill(); goto(p) for p in ps; end_fill()] issues the lines of the
    path (if the pen is down) and then exactly one [fill_polygon], whose
    points are the starting position followed by the points of the path, in
    order, with the fill colour; the turtle is not filling afterwards.  A
    polygon that was being gathered before [begin_fill] leaves no trace. *)
Theorem fill_along_path (self : turtle) (ps : list Position) :
  exists self',
    (BaseTurtle.begin_fill ;; goto_all ps ;; BaseTurtle.end_fill) self =
      Returns tt self' /\
    issued self self' =
      (if __pen_down self
       then segments (PyColor (__pen_color self)) (PyNum (__line_width self))
                     (BaseTurtle.current_pos self) ps
       else []) ++
      [Canvas.fill_polygon (Some (BaseTurtle.current_pos self :: ps))
                           (PyColor (__fill_color self))] /\
    filter Canvas.is_fill_polygon (issued self self') =
      [Canvas.fill_polygon (Some (BaseTurtle.current_pos self :: ps))
                           (PyColor (__fill_color self))] /\
    __polygon self' = None.
Proof.
  rewrite (bind_returns _ _ _ _ _ (begin_fill_returns self)).
  destruct (goto_all_returns
              ps (set_polygon (Some [BaseTurtle.current_pos self]) self))
    as (self1 & E & C & P & _ & _ & _ & FC & _ & _ & _).
  rewrite (bind_returns _ _ _ _ _ E), end_fill_returns.
  eexists. split; [reflexivity |].
  assert (I : issued self
                (set_polygon None
                   (set_canvas
                      (__canvas self1 ++
                       [Canvas.fill_polygon (__polygon self1)
                                            (PyColor (__fill_color self1))])
                      self1)) =
              (if __pen_down self
               then segments (PyColor (__pen_color self))
                             (PyNum (__line_width self))
                             (BaseTurtle.current_pos self) ps
               else []) ++
              [Canvas.fill_polygon (Some (BaseTurtle.current_pos self :: ps))
                                   (PyColor (__fill_color self))]).
  { apply issued_app. cbn [set_polygon set_canvas __canvas].
    rewrite C, P, FC. cbn. rewrite <- app_assoc. reflexivity. }
  rewrite I. split; [reflexivity |]. split; [| reflexivity].
  rewrite filter_app.
  destruct (__pen_down self); [rewrite segments_are_lines |]; reflexivity.
Qed.

(** ** The unit zero *)

(** Once the unit is zero ([degrees(0)]), [setheading], [right] and [left]
    raise [ZeroDivisionError] for every argument and leave the turtle as it
    was, while [heading()] still returns: it reads 90 whatever the stored
    angle. *)
Theorem zero_unit_rotations_raise (self : turtle) (a : R) :
  __degrees self = 0 ->
  BaseTurtle.setheading a self = Raises ZeroDivisionError self /\
  Turtle.right a self = Raises ZeroDivisionError self /\
  Turtle.left a self = Raises ZeroDivisionError self /\
  BaseTurtle.heading self = Returns 90 self.
Proof.
  intros Hd.
  assert (Hright : forall b, Turtle.right b self = Raises ZeroDivisionError self).
  { intros b. unfold Turtle.right.
    rewrite (bind_returns _ _ _ _ _ (heading_returns self)).
    apply setheading_raises, Hd. }
  split; [apply setheading_raises, Hd |].
  split; [apply Hright |]. split; [apply Hright |].
  rewrite heading_returns, Hd. f_equal. unfold Rdiv. ring.
Qed.

Lemma zero_unit_rotations_raise_witness :
  BaseTurtle.setheading 45 (set_degrees 0 (BaseTurtle.init [])) =
    Raises ZeroDivisionError (set_degrees 0 (BaseTurtle.init [])) /\
  Turtle.right 45 (set_degrees 0 (BaseTurtle.init [])) =
    Raises ZeroDivisionError (set_degrees 0 (BaseTurtle.init [])) /\
  Turtle.left 45 (set_degrees 0 (BaseTurtle.init [])) =
    Raises ZeroDivisionError (set_degrees 0 (BaseTurtle.init [])) /\
  BaseTurtle.heading (set_degrees 0 (BaseTurtle.init [])) =
    Returns 90 (set_degrees 0 (BaseTurtle.init [])).
Proof.
  apply (zero_unit_rotations_raise (set_degrees 0 (BaseTurtle.init [])) 45).
  reflexivity.
Defined.

(** With the unit zero, [home()] and [reset()] raise [ZeroDivisionError],
    but only after the move: the turtle is at the origin, the line to the
    origin has been drawn if the pen is down, the stored angle is the old
    one, and [reset()] has not cleared the canvas. *)
Theorem zero_unit_home_moves_then_raises (self : turtle) :
  __degrees self = 0 ->
  exists self',
    Turtle.home self = Raises ZeroDivisionError self' /\
    Turtle.reset self = Raises ZeroDivisionError self' /\
    BaseTurtle.current_pos self' = mkPosition 0 0 /\
    __theta self' = __theta self /\
    issued self self' =
      (if __pen_down self
       then [Canvas.draw_line (BaseTurtle.current_pos self) (mkPosition 0 0)
                              (PyColor (__pen_color self))
                              (PyNum (__line_width self))]
       else []).
Proof.
  intros Hd.
  assert (H : exists self',
             Turtle.home self = Raises ZeroDivisionError self' /\
             BaseTurtle.current_pos self' = mkPosition 0 0 /\
             __theta self' = __theta self /\
             issued self self' =
               (if __pen_down self
                then [Canvas.draw_line (BaseTurtle.current_pos self)
                                       (mkPosition 0 0)
                                       (PyColor (__pen_color self))
                                       (PyNum (__line_width self))]
                else [])).
  { eexists. split.
    - unfold Turtle.home.
      rewrite (bind_returns _ _ _ _ _ (goto_returns 0 0 self)).
      apply setheading_raises. exact Hd.
    - split; [reflexivity |]. split; [reflexivity |].
      apply issued_app. cbn [__canvas].
      destruct (__pen_down self); [| rewrite app_nil_r]; reflexivity. }
  destruct H as (self' & E & P & T & I).
  exists self'. split; [exact E |].
  split; [unfold Turtle.reset; apply bind_raises, E |].
  split; [exact P |]. split; [exact T | exact I].
Qed.

Lemma zero_unit_home_moves_then_raises_witness :
  exists self',
    Turtle.home (set_degrees 0 (set_y 4 (set_x 3 (BaseTurtle.init [])))) =
      Raises ZeroDivisionError self' /\
    Turtle.reset (set_degrees 0 (set_y 4 (set_x 3 (BaseTurtle.init [])))) =
      Raises ZeroDivisionError self' /\
    BaseTurtle.current_pos self' = mkPosition 0 0 /\
    __theta self' = PI / 2 /\
    issued (set_degrees 0 (set_y 4 (set_x 3 (BaseTurtle.init [])))) self' =
      [Canvas.draw_line (mkPosition 3 4) (mkPosition 0 0)
                        (PyColor (mkColor 0 0 0)) (PyNum 1)].
Proof.
  apply (zero_unit_home_moves_then_raises
           (set_degrees 0 (set_y 4 (set_x 3 (BaseTurtle.init []))))).
  reflexivity.
Defined.

(** ** [home] and [reset] *)






(** ** Distances and straight moves *)







(** ** Turning *)









(** ** A square *)






(** ** Pen width, dot size and colours *)

(** [pensize(w)] followed by [pensize()] returns [w]; [pensize()] alone
    returns the width and changes nothing; the width set is the one the
    next line is drawn with.  No width is refused. *)
Theorem pensize_set_then_get (self : turtle) (w x y : R) :
  (BaseTurtle.pensize (Some w) ;; BaseTurtle.pensize None) self =
    Returns (Some w) (set_line_width w self) /\
  BaseTurtle.pensize None self = Returns (Some (__line_width self)) self /\
  (exists self',
      (BaseTurtle.pensize (Some w) ;; BaseTurtle.pendown ;;
       BaseTurtle.goto x y) self = Returns tt self' /\
      issued self self' =
        [Canvas.draw_line (BaseTurtle.current_pos self) (mkPosition x y)
                          (PyColor (__pen_color self)) (PyNum w)]).
Proof.
  split; [reflexivity |]. split; [reflexivity |].
  eexists. split.
  - rewrite (bind_returns _ _ self (set_line_width w self) None)
      by reflexivity.
    rewrite (bind_returns _ _ _ (set_pen_down true (set_line_width w self)) tt)
      by reflexivity.
    apply goto_returns.
  - apply issued_app. reflexivity.
Qed.

(** With the pen down, the size of [dot()] is the pen width plus 4 for
    widths up to 4 and twice the pen width from 4 on; a size that is passed
    is used as it is, whatever its sign. *)
Theorem dot_size_rule (self : turtle) (given : R) :
  __pen_down self = true ->
  (exists (self' : turtle) (size : R) (color width : PyValue),
      BaseTurtle.dot None self = Returns tt self' /\
      issued self self' =
        [Canvas.draw_circle (BaseTurtle.current_pos self) size
                            color width false] /\
      (__line_width self <= 4 -> size = __line_width self + 4) /\
      (4 <= __line_width self -> size = __line_width self * 2)) /\
  (exists (self' : turtle) (color width : PyValue),
      BaseTurtle.dot (Some given) self = Returns tt self' /\
      issued self self' =
        [Canvas.draw_circle (BaseTurtle.current_pos self) given
                            color width false]).
Proof.
  intros Hdown. split.
  - eexists. exists (py_max (__line_width self + 4) (__line_width self * 2)).
    do 2 eexists. split; [apply dot_returns |]. rewrite Hdown.
    split; [apply issued_app; reflexivity |].
    unfold py_max.
    destruct (Rlt_dec (__line_width self + 4) (__line_width self * 2));
      split; intros; lra.
  - do 3 eexists. split; [apply dot_returns |]. rewrite Hdown.
    apply issued_app. reflexivity.
Qed.

Lemma dot_size_rule_witness :
  (exists (self' : turtle) (size : R) (color width : PyValue),
      BaseTurtle.dot None (set_line_width 6 (BaseTurtle.init [])) =
        Returns tt self' /\
      issued (set_line_width 6 (BaseTurtle.init [])) self' =
        [Canvas.draw_circle (mkPosition 0 0) size color width false] /\
      (6 <= 4 -> size = 6 + 4) /\
      (4 <= 6 -> size = 6 * 2)) /\
  (exists (self' : turtle) (color width : PyValue),
      BaseTurtle.dot (Some (-3)) (set_line_width 6 (BaseTurtle.init [])) =
        Returns tt self' /\
      issued (set_line_width 6 (BaseTurtle.init [])) self' =
        [Canvas.draw_circle (mkPosition 0 0) (-3) color width false]).
Proof.
  apply (dot_size_rule (set_line_width 6 (BaseTurtle.init [])) (-3)).
  reflexivity.
Defined.

(** When [Color.of] accepts the specification, [pencolor] changes the pen
    colour alone and [fillcolor] the fill colour alone; [color] sets both,
    and the next line and the next polygon carry the new colour. *)
Theorem color_sets_pen_and_fill
        (ColorSpec : Type) (Color_of : ColorSpec -> option Color)
        (c : ColorSpec) (col : Color) (self : turtle) (x y : R) :
  Color_of c = Some col ->
  BaseTurtle.pencolor ColorSpec Color_of c self =
    Returns tt (set_pen_color col self) /\
  BaseTurtle.fillcolor ColorSpec Color_of c self =
    Returns tt (set_fill_color col self) /\
  Turtle.color Color_of c self =
    Returns tt (set_fill_color col (set_pen_color col self)) /\
  (exists self',
      (Turtle.color Color_of c ;; BaseTurtle.pendown ;;
       BaseTurtle.begin_fill ;; BaseTurtle.goto x y ;;
       BaseTurtle.end_fill) self = Returns tt self' /\
      issued self self' =
        [Canvas.draw_line (BaseTurtle.current_pos self) (mkPosition x y)
                          (PyColor col) (PyNum (__line_width self));
         Canvas.fill_polygon
           (Some [BaseTurtle.current_pos self; mkPosition x y])
           (PyColor col)]).
Proof.
  intros Hc.
  assert (Hpen : BaseTurtle.pencolor ColorSpec Color_of c self =
                 Returns tt (set_pen_color col self)).
  { unfold BaseTurtle.pencolor, BaseTurtle.convert_color, bind.
    rewrite Hc. reflexivity. }
  assert (Hfill : forall t, BaseTurtle.fillcolor ColorSpec Color_of c t =
                            Returns tt (set_fill_color col t)).
  { intros t. unfold BaseTurtle.fillcolor, BaseTurtle.convert_color, bind.
    rewrite Hc. reflexivity. }
  assert (Hboth : Turtle.color Color_of c self =
                  Returns tt (set_fill_color col (set_pen_color col self))).
  { unfold Turtle.color. rewrite (bind_returns _ _ _ _ _ Hpen). apply Hfill. }
  split; [exact Hpen |]. split; [apply Hfill |]. split; [exact Hboth |].
  rewrite (bind_returns _ _ _ _ _ Hboth).
  rewrite (bind_returns _ _ _
             (set_pen_down true (set_fill_color col (set_pen_color col self)))
             tt) by reflexivity.
  rewrite (bind_returns _ _ _ _ _ (begin_fill_returns _)).
  rewrite (bind_returns _ _ _ _ _ (goto_returns x y _)).
  rewrite end_fill_returns.
  eexists. split; [reflexivity |].
  apply issued_app. cbn. rewrite <- app_assoc. reflexivity.
Qed.

Lemma color_sets_pen_and_fill_witness :
  BaseTurtle.pencolor (option Color) (fun o => o) (Some (mkColor 255 0 0))
                      (BaseTurtle.init []) =
    Returns tt (set_pen_color (mkColor 255 0 0) (BaseTurtle.init [])) /\
  BaseTurtle.fillcolor (option Color) (fun o => o) (Some (mkColor 255 0 0))
                       (BaseTurtle.init []) =
    Returns tt (set_fill_color (mkColor 255 0 0) (BaseTurtle.init [])) /\
  Turtle.color (fun o : option Color => o) (Some (mkColor 255 0 0))
               (BaseTurtle.init []) =
    Returns tt (set_fill_color (mkColor 255 0 0)
                  (set_pen_color (mkColor 255 0 0) (BaseTurtle.init []))) /\
  (exists self',
      (Turtle.color (fun o : option Color => o) (Some (mkColor 255 0 0)) ;;
       BaseTurtle.pendown ;; BaseTurtle.begin_fill ;; BaseTurtle.goto 3 4 ;;
       BaseTurtle.end_fill) (BaseTurtle.init []) = Returns tt self' /\
      issued (BaseTurtle.init []) self' =
        [Canvas.draw_line (mkPosition 0 0) (mkPosition 3 4)
                          (PyColor (mkColor 255 0 0)) (PyNum 1);
         Canvas.fill_polygon (Some [mkPosition 0 0; mkPosition 3 4])
                             (PyColor (mkColor 255 0 0))]).
Proof.
  apply (color_sets_pen_and_fill
           (option Color) (fun o => o) (Some (mkColor 255 0 0))
           (mkColor 255 0 0) (BaseTurtle.init []) 3 4).
  reflexivity.
Defined.

(** When [Color.of] rejects the specification, [pencolor], [fillcolor] and
    [color] raise and the turtle is as before: the conversion comes before
    any assignment, and [color] stops at its first step, so the pen colour
    is not changed without the fill colour. *)
Theorem rejected_color_changes_nothing
        (ColorSpec : Type) (Color_of : ColorSpec -> option Color)
        (c : ColorSpec) (self : turtle) :
  Color_of c = None ->
  exists e : PyError,
    BaseTurtle.pencolor ColorSpec Color_of c self = Raises e self /\
    BaseTurtle.fillcolor ColorSpec Color_of c self = Raises e self /\
    Turtle.color Color_of c self = Raises e self.
Proof.
  intros Hc. exists ColorFormatError.
  assert (Hpen : BaseTurtle.pencolor ColorSpec Color_of c self =
                 Raises ColorFormatError self).
  { unfold BaseTurtle.pencolor, BaseTurtle.convert_color, bind.
    rewrite Hc. reflexivity. }
  split; [exact Hpen |]. split.
  - unfold BaseTurtle.fillcolor, BaseTurtle.convert_color, bind.
    rewrite Hc. reflexivity.
  - unfold Turtle.color. apply bind_raises, Hpen.
Qed.

Lemma rejected_color_changes_nothing_witness :
  exists e : PyError,
    BaseTurtle.pencolor (option Color) (fun o => o) None (BaseTurtle.init [])
      = Raises e (BaseTurtle.init []) /\
    BaseTurtle.fillcolor (option Color) (fun o => o) None (BaseTurtle.init [])
      = Raises e (BaseTurtle.init []) /\
    Turtle.color (fun o : option Color => o) None (BaseTurtle.init []) =
      Raises e (BaseTurtle.init []).
Proof.
  apply (rejected_color_changes_nothing
           (option Color) (fun o => o) None (BaseTurtle.init [])).
  reflexivity.
Defined.

(** ** Moves and turns add up *)



(** ** Argument order of circle calls *)

(** With the pen down, [circle(r)] and [dot(s)] each issue one
    [draw_circle] call in which the slot declared [color] holds the pen
    width and the slot declared [width] holds the pen colour; only the fill
    flag differs, true for [circle] and false for [dot].  Neither moves the
    turtle nor touches the polygon being gathered. *)
Theorem circle_and_dot_pass_width_then_color (self : turtle) (r s : R) :
  __pen_down self = true ->
  (exists self',
      BaseTurtle.circle r self = Returns tt self' /\
      issued self self' =
        [Canvas.draw_circle (BaseTurtle.current_pos self) r
                            (PyNum (__line_width self))
                            (PyColor (__pen_color self)) true] /\
      BaseTurtle.current_pos self' = BaseTurtle.current_pos self /\
      __polygon self' = __polygon self) /\
  (exists self',
      BaseTurtle.dot (Some s) self = Returns tt self' /\
      issued self self' =
        [Canvas.draw_circle (BaseTurtle.current_pos self) s
                            (PyNum (__line_width self))
                            (PyColor (__pen_color self)) false] /\
      BaseTurtle.current_pos self' = BaseTurtle.current_pos self /\
      __polygon self' = __polygon self).
Proof.
  intros Hdown. split; eexists.
  - split; [apply circle_returns |]. rewrite Hdown.
    split; [apply issued_app; reflexivity |]. split; reflexivity.
  - split; [apply dot_returns |]. rewrite Hdown.
    split; [apply issued_app; reflexivity |]. split; reflexivity.
Qed.

Lemma circle_and_dot_pass_width_then_color_witness :
  (exists self',
      BaseTurtle.circle 5 (BaseTurtle.init []) = Returns tt self' /\
      issued (BaseTurtle.init []) self' =
        [Canvas.draw_circle (mkPosition 0 0) 5
                            (PyNum 1) (PyColor (mkColor 0 0 0)) true] /\
      BaseTurtle.current_pos self' = mkPosition 0 0 /\
      __polygon self' = None) /\
  (exists self',
      BaseTurtle.dot (Some 2) (BaseTurtle.init []) = Returns tt self' /\
      issued (BaseTurtle.init []) self' =
        [Canvas.draw_circle (mkPosition 0 0) 2
                            (PyNum 1) (PyColor (mkColor 0 0 0)) false] /\
      BaseTurtle.current_pos self' = mkPosition 0 0 /\
      __polygon self' = None).
Proof.
  apply (circle_and_dot_pass_width_then_color (BaseTurtle.init []) 5 2).
  reflexivity.
Defined.
